(** * radon.metrics: Halstead metrics and the Maintainability Index

    A shallow embedding of [radon/metrics.py].  Python integers that are
    counts are modelled by [N]; Python floats are idealised as the real
    numbers [R] (no rounding, no overflow).  Exceptions are explicit: every
    operation that can raise returns a [result]. *)

From Stdlib Require Import Reals Lra Lia ZArith NArith Bool.

Local Open Scope R_scope.

(** ** Exceptions and the error monad *)

Inductive exn : Type :=
| ValueError          (* "math domain error" *)
| ZeroDivisionError.  (* "float division by zero" *)

Inductive result (A : Type) : Type :=
| Ok (a : A)
| Raise (e : exn).

Arguments Ok {A} a.
Arguments Raise {A} e.

Definition bind {A B : Type} (m : result A) (k : A -> result B) : result B :=
  match m with
  | Ok a => k a
  | Raise e => Raise e
  end.

Notation "x <- m ;; k" := (bind m (fun x => k))
  (at level 61, m at next level, right associativity).

Notation "' p <- m ;; k" := (bind m (fun x => match x with p => k end))
  (at level 61, p pattern, m at next level, right associativity).

(** ** Python numeric primitives *)

(** [float(n)] for a non-negative integer. *)
Definition float (n : N) : R := IZR (Z.of_N n).

(** [a / b] on floats; Python raises on a zero divisor. *)
Definition truediv (a b : R) : result R :=
  if Req_dec_T b 0 then Raise ZeroDivisionError else Ok (a / b).

(** [x != y] on floats. *)
Definition Rneq_dec (x y : R) : {x <> y} + {x = y} :=
  match Req_dec_T x y with
  | left e => right e
  | right n => left n
  end.

(** [max(0, x)]. *)
Definition max0 (x : R) : R := Rmax 0 x.

Module math.

(** [math.log(x)] on a float. *)
Definition log (x : R) : result R :=
  if Rlt_dec 0 x then Ok (ln x) else Raise ValueError.

(** [math.log(x, base)] on integers: the logarithm of [x], then the
    logarithm of [base], then their quotient. *)
Definition log_base (x base : N) : result R :=
  if (x =? 0)%N then Raise ValueError
  else if (base =? 0)%N then Raise ValueError
  else truediv (ln (float x)) (ln (float base)).

(** [math.sqrt(x)]. *)
Definition sqrt (x : R) : result R :=
  if Rlt_dec x 0 then Raise ValueError else Ok (R_sqrt.sqrt x).

(** [math.sin(x)], total on finite arguments. *)
Definition sin (x : R) : R := Rtrigo_def.sin x.

End math.

(** ** The [Halstead] named tuple *)

Module Halstead.

Record t : Type := mk {
  h1 : N;
  h2 : N;
  N1 : N;
  N2 : N;
  vocabulary : N;
  length : N;
  calculated_length : R;
  volume : R;
  difficulty : R;
  effort : R;
  time : R;
  bugs : R
}.

End Halstead.

(** ** External collaborators

    [radon.visitors.HalsteadVisitor] and [radon.raw.analyze] are seen only
    through the attributes that [metrics.py] reads. *)

Record HalsteadVisitor : Type := mkVisitor {
  distinct_operators : N;
  distinct_operands : N;
  operators : N;
  operands : N
}.

Record RawModule : Type := mkRaw {
  lloc : N;
  sloc : N;
  comments : N;
  multi : N
}.

(** ** compute_mi *)

Definition compute_mi (halstead_volume complexity sloc comments : R) : result R :=
  sloc_scale <- (if Rgt_dec sloc 0 then math.log sloc else Ok 0) ;;
  volume_scale <-
    (if Rgt_dec halstead_volume 0 then math.log halstead_volume else Ok 0) ;;
  comments_scale <-
    (if Rneq_dec comments 0 then math.sqrt (2.46 * comments) else Ok 0) ;;
  Ok (max0 ((171 - 5.2 * volume_scale - 0.23 * complexity
             - 16.2 * sloc_scale + 50 * math.sin comments) * 100 / 171)).

Section Metrics.

(** The parser, the two visitors and the raw-line classifier. *)
Variables Code Ast Blocks : Type.
Variable ast_parse : Code -> Ast.
Variable from_ast : Ast -> HalsteadVisitor.
Variable cc_visit_ast : Ast -> Blocks.
Variable average_complexity : Blocks -> R.
Variable analyze : Code -> RawModule.

(** ** h_visit_ast *)

Definition h_visit_ast (ast_node : Ast) : result Halstead.t :=
  let visitor := from_ast ast_node in
  let '(h1, h2) := (distinct_operators visitor, distinct_operands visitor) in
  let '(N1, N2) := (operators visitor, operands visitor) in
  let h := (h1 + h2)%N in
  let N := (N1 + N2)%N in
  volume <- math.log_base (h ^ N)%N 2 ;;
  difficulty <-
    (if negb (h2 =? 0)%N
     then truediv (float (h1 * N2)) (float (2 * h2))
     else Ok 0) ;;
  let effort := difficulty * volume in
  log_h1 <- math.log_base h1 2 ;;
  log_h2 <- math.log_base h2 2 ;;
  Ok (Halstead.mk
        h1 h2 N1 N2 h N (float h1 * log_h1 + float h2 * log_h2)
        volume difficulty effort (effort / 18) (volume / 3000)).

(** ** h_visit *)

Definition h_visit (code : Code) : result Halstead.t :=
  h_visit_ast (ast_parse code).

(** ** mi_parameters *)

Definition mi_parameters (code : Code) (count_multi : bool)
  : result (R * R * N * R) :=
  let ast_node := ast_parse code in
  let raw := analyze code in
  let comments_lines :=
    (comments raw + (if count_multi then multi raw else 0))%N in
  ratio <- truediv (float (comments raw)) (float (sloc raw)) ;;
  let comments := ratio * 100 in
  H <- h_visit_ast ast_node ;;
  Ok (Halstead.volume H,
      average_complexity (cc_visit_ast ast_node), lloc raw, comments).

(** ** mi_visit *)

Definition mi_visit (code : Code) (multi : bool) : result R :=
  '(volume, complexity, lloc, comments) <- mi_parameters code multi ;;
  compute_mi volume complexity (float lloc) comments.

End Metrics.

Arguments h_visit_ast {Ast} from_ast ast_node.
Arguments h_visit {Code Ast} ast_parse from_ast code.
Arguments mi_parameters {Code Ast Blocks}
  ast_parse from_ast cc_visit_ast average_complexity analyze code count_multi.
Arguments mi_visit {Code Ast Blocks}
  ast_parse from_ast cc_visit_ast average_complexity analyze code multi.

(** ** A concrete instance of the collaborators

    A source unit is represented by the facts the collaborators extract from
    it, so that the functions above can be run on explicit inputs. *)

Module Facts.

Record t : Type := mk {
  visitor : HalsteadVisitor;
  complexity : R;
  raw : RawModule
}.

Definition halstead (v : HalsteadVisitor) : result Halstead.t :=
  h_visit_ast (fun v => v) v.

Definition parameters (u : t) (count_multi : bool)
  : result (R * R * N * R) :=
  mi_parameters (fun u => u) visitor complexity (fun c => c) raw
    u count_multi.

Definition index (u : t) (multi : bool) : result R :=
  mi_visit (fun u => u) visitor complexity (fun c => c) raw u multi.

End Facts.

(** ** Reference formulas and sample units *)

(** The record that [h_visit_ast] builds when every logarithm is defined,
    with the formulas of its docstring. *)
Definition halstead_record (v : HalsteadVisitor) : Halstead.t :=
  let h1 := distinct_operators v in
  let h2 := distinct_operands v in
  let N1 := operators v in
  let N2 := operands v in
  let h := (h1 + h2)%N in
  let N := (N1 + N2)%N in
  let V := float N * (ln (float h) / ln 2) in
  let D := float h1 / 2 * (float N2 / float h2) in
  Halstead.mk h1 h2 N1 N2 h N
    (float h1 * (ln (float h1) / ln 2) + float h2 * (ln (float h2) / ln 2))
    V D (D * V) (D * V / 18) (V / 3000).

(** The closed form of the score, as the specification writes it. *)
Definition mi_formula (volume complexity logicalLines commentPercentage : R)
  : R :=
  let sloc_scale := if Rgt_dec logicalLines 0 then ln logicalLines else 0 in
  let volume_scale := if Rgt_dec volume 0 then ln volume else 0 in
  let mi_raw := 171 - 5.2 * volume_scale - 0.23 * complexity
                - 16.2 * sloc_scale + 50 * sin commentPercentage in
  Rmax 0 (mi_raw * 100 / 171).

(** [compute_mi] with the assignment to [comments_scale] removed. *)
Definition compute_mi_without_comments_scale
    (halstead_volume complexity sloc comments : R) : result R :=
  sloc_scale <- (if Rgt_dec sloc 0 then math.log sloc else Ok 0) ;;
  volume_scale <-
    (if Rgt_dec halstead_volume 0 then math.log halstead_volume else Ok 0) ;;
  Ok (max0 ((171 - 5.2 * volume_scale - 0.23 * complexity
             - 16.2 * sloc_scale + 50 * math.sin comments) * 100 / 171)).

(** The comment percentage as the specification describes it: the comment
    lines, plus the multi-line string lines when the flag is set, as a
    percentage of the logical lines. *)
Definition spec_comment_percentage (raw : RawModule) (count_multi : bool)
  : R :=
  float (comments raw + (if count_multi then multi raw else 0))
  / float (lloc raw) * 100.

(** The fourth component of the result of [mi_parameters]. *)
Definition comment_percentage (r : result (R * R * N * R)) : result R :=
  '(_, _, _, comments) <- r ;; Ok comments.

(** A unit with one comment line, four source lines and two logical lines. *)
Definition commented_unit : Facts.t :=
  Facts.mk (mkVisitor 2 1 3 1) 1 (mkRaw 2 4 1 0).

(** The empty source unit. *)
Definition empty_unit : Facts.t :=
  Facts.mk (mkVisitor 0 0 0 0) 0 (mkRaw 0 0 0 0).

(** A unit with one comment line, three multi-line string lines, and two
    source lines that are also its two logical lines. *)
Definition multiline_unit : Facts.t :=
  Facts.mk (mkVisitor 2 1 3 1) 1 (mkRaw 2 2 1 3).

(** ** Facts about the primitives *)

Lemma float_0 : float 0 = 0.
Proof. reflexivity. Qed.

Lemma float_2 : float 2 = 2.
Proof. reflexivity. Qed.

Lemma float_pos (n : N) : n <> 0%N -> 0 < float n.
Proof.
  intros Hn. unfold float. apply IZR_lt. lia.
Qed.

Lemma float_neq_0 (n : N) : n <> 0%N -> float n <> 0.
Proof.
  intros Hn. pose proof (float_pos n Hn). lra.
Qed.

Lemma float_add (a b : N) : float (a + b) = float a + float b.
Proof.
  unfold float. rewrite N2Z.inj_add. apply plus_IZR.
Qed.

Lemma float_mul (a b : N) : float (a * b) = float a * float b.
Proof.
  unfold float. rewrite N2Z.inj_mul. apply mult_IZR.
Qed.

Lemma float_pow (a n : N) : float (a ^ n) = float a ^ N.to_nat n.
Proof.
  unfold float. rewrite N2Z.inj_pow.
  rewrite <- (N2Nat.id n) at 1. rewrite nat_N_Z.
  symmetry. apply pow_IZR.
Qed.

Lemma INR_to_nat (n : N) : INR (N.to_nat n) = float n.
Proof.
  unfold float. rewrite INR_IZR_INZ. f_equal.
  rewrite <- (N2Nat.id n) at 2. now rewrite nat_N_Z.
Qed.

Lemma ln_2_pos : 0 < ln 2.
Proof. pose proof ln_lt_2. lra. Qed.

Lemma truediv_ok (a b : R) : b <> 0 -> truediv a b = Ok (a / b).
Proof.
  intros Hb. unfold truediv. destruct (Req_dec_T b 0); [contradiction | reflexivity].
Qed.

Lemma truediv_zero (a : R) : truediv a 0 = Raise ZeroDivisionError.
Proof.
  unfold truediv. destruct (Req_dec_T 0 0); [reflexivity | contradiction].
Qed.

Lemma log_base_2 (x : N) :
  math.log_base x 2 =
  if (x =? 0)%N then Raise ValueError else Ok (ln (float x) / ln 2).
Proof.
  unfold math.log_base. destruct (x =? 0)%N; [reflexivity |].
  cbn [N.eqb]. rewrite float_2. apply truediv_ok.
  pose proof ln_2_pos. lra.
Qed.

Lemma log_ok (x : R) : 0 < x -> math.log x = Ok (ln x).
Proof.
  intros Hx. unfold math.log. destruct (Rlt_dec 0 x); [reflexivity | contradiction].
Qed.

Lemma sqrt_ok (x : R) : 0 <= x -> math.sqrt x = Ok (sqrt x).
Proof.
  intros Hx. unfold math.sqrt. destruct (Rlt_dec x 0); [lra | reflexivity].
Qed.

Lemma sqrt_raises (x : R) : x < 0 -> math.sqrt x = Raise ValueError.
Proof.
  intros Hx. unfold math.sqrt. destruct (Rlt_dec x 0); [reflexivity | contradiction].
Qed.

(** The guard on [h2] is enough for the division in [difficulty]. *)
Lemma difficulty_guard (a h2 : N) :
  (if negb (h2 =? 0)%N then truediv (float a) (float (2 * h2)) else Ok 0) =
  Ok (if (h2 =? 0)%N then 0 else float a / float (2 * h2)).
Proof.
  destruct (N.eqb_spec h2 0) as [-> | Hn]; cbn [negb]; [reflexivity |].
  apply truediv_ok, float_neq_0. lia.
Qed.

(** ** The Halstead computation *)

Lemma ln_float_pow (h n : N) :
  h <> 0%N -> ln (float (h ^ n)) = float n * ln (float h).
Proof.
  intros Hh. rewrite float_pow, ln_pow by now apply float_pos.
  now rewrite INR_to_nat.
Qed.

(** [h_visit_ast] raises exactly when there is no distinct operator or no
    distinct operand, and otherwise returns [halstead_record]. *)
Lemma h_visit_ast_cases {Ast : Type} (from_ast : Ast -> HalsteadVisitor)
    (ast_node : Ast) :
  h_visit_ast from_ast ast_node =
  if ((distinct_operators (from_ast ast_node) =? 0)
      || (distinct_operands (from_ast ast_node) =? 0))%N
  then Raise ValueError
  else Ok (halstead_record (from_ast ast_node)).
Proof.
  unfold h_visit_ast, halstead_record.
  destruct (from_ast ast_node) as [h1 h2 N1 N2]; cbn [distinct_operators
    distinct_operands operators operands].
  rewrite !log_base_2, difficulty_guard.
  destruct (N.eqb_spec h1 0) as [-> | H1]; cbn [orb].
  - destruct ((0 + h2) ^ (N1 + N2) =? 0)%N; reflexivity.
  - destruct (N.eqb_spec h2 0) as [-> | H2].
    + destruct ((h1 + 0) ^ (N1 + N2) =? 0)%N; reflexivity.
    + assert (Hh : (h1 + h2)%N <> 0%N) by lia.
      destruct (N.eqb_spec ((h1 + h2) ^ (N1 + N2)) 0) as [E | _].
      * exfalso. revert E. apply N.pow_nonzero. exact Hh.
      * cbn [bind]. rewrite ln_float_pow by exact Hh.
        assert (Hd : float (h1 * N2) / float (2 * h2) =
                     float h1 / 2 * (float N2 / float h2)).
        { rewrite !float_mul, float_2.
          pose proof (float_neq_0 h2 H2). field. exact H. }
        rewrite Hd.
        assert (Hv : float (N1 + N2) * ln (float (h1 + h2)) / ln 2 =
                     float (N1 + N2) * (ln (float (h1 + h2)) / ln 2)).
        { pose proof ln_2_pos. field. lra. }
        rewrite Hv. reflexivity.
Qed.

(** On a unit with at least one operator and one operand the Halstead
    record is returned, with the documented volume and difficulty. *)
Lemma h_visit_ast_defined {Ast : Type} (from_ast : Ast -> HalsteadVisitor)
    (ast_node : Ast) :
  distinct_operators (from_ast ast_node) <> 0%N ->
  distinct_operands (from_ast ast_node) <> 0%N ->
  h_visit_ast from_ast ast_node = Ok (halstead_record (from_ast ast_node)).
Proof.
  intros H1 H2. rewrite h_visit_ast_cases.
  destruct (N.eqb_spec (distinct_operators (from_ast ast_node)) 0);
    [contradiction |].
  destruct (N.eqb_spec (distinct_operands (from_ast ast_node)) 0);
    [contradiction | reflexivity].
Qed.

(** The concrete case [h1 = 2, h2 = 1, N1 = 3, N2 = 1]. *)
Example halstead_2_1_3_1 :
  exists H, Facts.halstead (mkVisitor 2 1 3 1) = Ok H
    /\ Halstead.vocabulary H = 3%N /\ Halstead.length H = 4%N
    /\ Halstead.volume H = 4 * (ln 3 / ln 2)
    /\ Halstead.difficulty H = 1
    /\ Halstead.effort H = 4 * (ln 3 / ln 2).
Proof.
  eexists. split.
  - unfold Facts.halstead. apply h_visit_ast_defined; discriminate.
  - cbn. unfold float; cbn. repeat split; field; pose proof ln_2_pos; lra.
Qed.

(** C1.  The claim is that the Halstead computation never raises and never
    takes the logarithm of a non-positive number on non-negative counts with
    distinct <= total.  The code does raise: whenever there is no distinct
    operator or no distinct operand, [math.log(0, 2)] is evaluated and
    [h_visit_ast] ends with [ValueError]. *)
Theorem h_visit_ast_raises_without_operators_or_operands
    {Ast : Type} (from_ast : Ast -> HalsteadVisitor) (ast_node : Ast) :
  distinct_operators (from_ast ast_node) = 0%N
  \/ distinct_operands (from_ast ast_node) = 0%N ->
  h_visit_ast from_ast ast_node = Raise ValueError.
Proof.
  intros H. rewrite h_visit_ast_cases.
  destruct H as [-> | ->]; cbn [N.eqb orb]; [reflexivity |].
  now rewrite orb_true_r.
Qed.

Lemma h_visit_ast_raises_without_operators_or_operands_witness :
  (distinct_operators (mkVisitor 0 0 0 0) = 0%N
   \/ distinct_operands (mkVisitor 0 0 0 0) = 0%N)
  /\ h_visit_ast (fun v => v) (mkVisitor 0 0 0 0) = Raise ValueError.
Proof.
  split.
  - left. reflexivity.
  - apply (h_visit_ast_raises_without_operators_or_operands
             (fun v => v) (mkVisitor 0 0 0 0)).
    left. reflexivity.
Defined.

(** C5.  The claim is that the all-zero input yields a record whose volume,
    difficulty, effort, time and bugs are 0.  On the code the all-zero input
    yields no record: [h_visit_ast] raises [ValueError]. *)
Theorem h_visit_ast_all_zero_raises :
  Facts.halstead (mkVisitor 0 0 0 0) = Raise ValueError.
Proof.
  unfold Facts.halstead. rewrite h_visit_ast_cases. reflexivity.
Qed.

(** C6.  The claim is that the volume is [N * log2 h] for [h > 0] and 0 for
    [h = 0], without a logarithm of zero.  With an empty vocabulary the
    volume expression [math.log(h ** N, 2)] is 0 only for [N = 0] (where
    [0 ** 0 = 1]) and is itself a logarithm of zero for [N > 0]; whatever
    the totals are, [h_visit_ast] raises [ValueError] on a logarithm of
    zero. *)
Theorem h_visit_ast_empty_vocabulary_raises :
  math.log_base ((0 + 0) ^ (0 + 0))%N 2 = Ok 0
  /\ (forall n : N,
        math.log_base ((0 + 0) ^ N.succ n)%N 2 = Raise ValueError)
  /\ (forall N1 N2 : N,
        Facts.halstead (mkVisitor 0 0 N1 N2) = Raise ValueError).
Proof.
  repeat split.
  - rewrite log_base_2. cbn. unfold float; cbn. rewrite ln_1.
    f_equal. unfold Rdiv. apply Rmult_0_l.
  - intros n. rewrite log_base_2.
    rewrite N.add_0_l, N.pow_0_l by apply N.neq_succ_0. reflexivity.
  - intros N1 N2. unfold Facts.halstead. rewrite h_visit_ast_cases.
    reflexivity.
Qed.

(** C7.  The claim is that the difficulty is [(h1 / 2) * (N2 / h2)] for a
    non-zero [h2] and 0 for [h2 = 0], the volume still being returned in the
    latter case.  With [h2 = 0] the guard of the division is taken, but no
    record is returned: [h1 * math.log(h1, 2) + h2 * math.log(h2, 2)]
    raises [ValueError]. *)
Theorem h_visit_ast_no_operands_raises :
  forall h1 N1 N2 : N,
    Facts.halstead (mkVisitor h1 0 N1 N2) = Raise ValueError.
Proof.
  intros h1 N1 N2. unfold Facts.halstead. rewrite h_visit_ast_cases.
  cbn [distinct_operators distinct_operands N.eqb].
  now rewrite orb_true_r.
Qed.

(** ** The Maintainability Index formula *)

(** The guards [x > 0] are enough for the natural logarithms. *)
Lemma log_guard (x : R) :
  (if Rgt_dec x 0 then math.log x else Ok 0) =
  Ok (if Rgt_dec x 0 then ln x else 0).
Proof.
  destruct (Rgt_dec x 0) as [Hx | _]; [| reflexivity].
  apply log_ok. exact Hx.
Qed.

Lemma comments_scale_cases (comments : R) :
  (if Rneq_dec comments 0 then math.sqrt (2.46 * comments) else Ok 0) =
  if Rlt_dec comments 0 then Raise ValueError
  else Ok (sqrt (2.46 * comments)).
Proof.
  destruct (Rneq_dec comments 0) as [Hn | ->].
  - destruct (Rlt_dec comments 0) as [Hlt | Hge].
    + apply sqrt_raises. lra.
    + apply sqrt_ok. lra.
  - destruct (Rlt_dec 0 0) as [Hlt | _]; [lra |].
    now rewrite Rmult_0_r, sqrt_0.
Qed.

Lemma compute_mi_without_comments_scale_eq (v c s p : R) :
  compute_mi_without_comments_scale v c s p = Ok (mi_formula v c s p).
Proof.
  unfold compute_mi_without_comments_scale, mi_formula.
  rewrite !log_guard. reflexivity.
Qed.

Lemma compute_mi_cases (v c s p : R) :
  compute_mi v c s p =
  if Rlt_dec p 0 then Raise ValueError else Ok (mi_formula v c s p).
Proof.
  unfold compute_mi, mi_formula.
  rewrite !log_guard, comments_scale_cases. cbn [bind].
  destruct (Rlt_dec p 0); reflexivity.
Qed.

(** C3, as stated: [compute_mi v c s p] is the closed form for every finite
    [v], [c], [s] and [p].  It fails for a negative comment percentage, where
    [math.sqrt(2.46 * comments)] raises before the score is computed. *)
Lemma compute_mi_negative_percentage_counterexample :
  compute_mi 1 1 1 (-1) = Raise ValueError
  /\ compute_mi 1 1 1 (-1) <> Ok (mi_formula 1 1 1 (-1)).
Proof.
  assert (E : compute_mi 1 1 1 (-1) = Raise ValueError).
  { rewrite compute_mi_cases. destruct (Rlt_dec (-1) 0); [reflexivity | lra]. }
  split; [exact E |]. rewrite E. discriminate.
Qed.

(** C3, amended: for every finite [v], [c], [s] and every comment percentage
    [p >= 0], [compute_mi v c s p] returns
    [max(0, (171 - 5.2*volume_scale - 0.23*c - 16.2*sloc_scale + 50*sin(p))
    * 100 / 171)] with the guarded natural logarithms and [sin] applied to
    the raw percentage; in particular [compute_mi 1 1 1 0] is
    [170.77 * 100 / 171]. *)
Theorem compute_mi_closed_form (v c s p : R) :
  0 <= p ->
  compute_mi v c s p =
    Ok (Rmax 0 ((171 - 5.2 * (if Rgt_dec v 0 then ln v else 0) - 0.23 * c
                 - 16.2 * (if Rgt_dec s 0 then ln s else 0) + 50 * sin p)
                * 100 / 171))
  /\ compute_mi 1 1 1 0 = Ok (170.77 * 100 / 171).
Proof.
  intros Hp. split.
  - rewrite compute_mi_cases.
    destruct (Rlt_dec p 0); [lra | reflexivity].
  - rewrite compute_mi_cases.
    destruct (Rlt_dec 0 0); [lra |]. f_equal.
    unfold mi_formula. destruct (Rgt_dec 1 0); [| lra].
    rewrite ln_1, sin_0. rewrite Rmax_right by lra. lra.
Qed.

Lemma compute_mi_closed_form_witness :
  0 <= 35
  /\ (compute_mi 8 2 4 35 =
        Ok (Rmax 0 ((171 - 5.2 * (if Rgt_dec 8 0 then ln 8 else 0) - 0.23 * 2
                     - 16.2 * (if Rgt_dec 4 0 then ln 4 else 0) + 50 * sin 35)
                    * 100 / 171))
      /\ compute_mi 1 1 1 0 = Ok (170.77 * 100 / 171)).
Proof.
  split.
  - lra.
  - apply (compute_mi_closed_form 8 2 4 35). lra.
Defined.

(** The two logarithmic scales are non-decreasing on the positive domain. *)
Lemma scale_monotone (x y : R) :
  x = y \/ 0 < x <= y ->
  (if Rgt_dec x 0 then ln x else 0) <= (if Rgt_dec y 0 then ln y else 0).
Proof.
  intros [-> | [Hx Hxy]]; [lra |].
  destruct (Rgt_dec x 0); [| lra]. destruct (Rgt_dec y 0); [| lra].
  destruct (Req_dec_T x y) as [-> | Hne]; [lra |].
  left. apply ln_increasing; lra.
Qed.

Lemma mi_formula_monotone (v1 v2 c1 c2 s1 s2 p : R) :
  c1 <= c2 -> v1 = v2 \/ 0 < v1 <= v2 -> s1 = s2 \/ 0 < s1 <= s2 ->
  mi_formula v2 c2 s2 p <= mi_formula v1 c1 s1 p.
Proof.
  intros Hc Hv Hs. unfold mi_formula.
  pose proof (scale_monotone v1 v2 Hv) as Lv.
  pose proof (scale_monotone s1 s2 Hs) as Ls.
  apply Rle_max_compat_l. lra.
Qed.

(** C8.  [compute_mi] is non-increasing in the complexity, and in the volume
    and the logical-line count on the positive domain: raising the
    complexity from [c1] to [c2], and the volume and the line count either
    not at all or from a positive [v1] to [v2] and a positive [s1] to [s2],
    never raises the score.  Taking [v1 = v2] and [s1 = s2] gives the
    statement for the complexity alone, and likewise for the other two.
    The comparison is between two returned scores unless the percentage is
    negative, for which neither call returns one. *)
Theorem compute_mi_monotone (v1 v2 c1 c2 s1 s2 p : R) :
  c1 <= c2 -> v1 = v2 \/ 0 < v1 <= v2 -> s1 = s2 \/ 0 < s1 <= s2 ->
  (exists m1 m2,
      compute_mi v1 c1 s1 p = Ok m1 /\ compute_mi v2 c2 s2 p = Ok m2
      /\ m1 >= m2)
  \/ (p < 0 /\ compute_mi v1 c1 s1 p = Raise ValueError
      /\ compute_mi v2 c2 s2 p = Raise ValueError).
Proof.
  intros Hc Hv Hs. rewrite !compute_mi_cases.
  destruct (Rlt_dec p 0) as [Hp | _].
  - right. repeat split. exact Hp.
  - left. exists (mi_formula v1 c1 s1 p), (mi_formula v2 c2 s2 p).
    repeat split. apply Rle_ge. now apply mi_formula_monotone.
Qed.

Lemma compute_mi_monotone_witness :
  1 <= 2 /\ (3 = 3 \/ 0 < 3 <= 3) /\ (1 = 5 \/ 0 < 1 <= 5)
  /\ ((exists m1 m2,
         compute_mi 3 1 1 0 = Ok m1 /\ compute_mi 3 2 5 0 = Ok m2
         /\ m1 >= m2)
      \/ (0 < 0 /\ compute_mi 3 1 1 0 = Raise ValueError
          /\ compute_mi 3 2 5 0 = Raise ValueError)).
Proof.
  assert (H1 : 1 <= 2) by lra.
  assert (H2 : 3 = 3 \/ 0 < 3 <= 3) by (left; reflexivity).
  assert (H3 : 1 = 5 \/ 0 < 1 <= 5) by (right; lra).
  repeat split; try assumption.
  exact (compute_mi_monotone 3 3 1 2 1 5 0 H1 H2 H3).
Defined.

(** C10.  The value of [comments_scale] does not reach the result:
    [compute_mi] agrees with the function without that assignment, which
    returns a score on every input, wherever [compute_mi] itself returns;
    the only difference is that [compute_mi] raises [ValueError] (square
    root of a negative number) on every negative comment percentage. *)
Theorem compute_mi_comments_scale_unused (v c s p : R) :
  (exists m, compute_mi_without_comments_scale v c s p = Ok m)
  /\ compute_mi v c s p =
     if Rlt_dec p 0 then Raise ValueError
     else compute_mi_without_comments_scale v c s p.
Proof.
  rewrite compute_mi_cases, compute_mi_without_comments_scale_eq.
  split; [now eexists | reflexivity].
Qed.

(** ** The raw-parameter aggregator *)

(** [mi_parameters] raises [ZeroDivisionError] on a unit without source
    lines, then [ValueError] on one without operators or operands, and
    otherwise returns the four parameters. *)
Lemma mi_parameters_cases
    {Code Ast Blocks : Type} (ast_parse : Code -> Ast)
    (from_ast : Ast -> HalsteadVisitor) (cc_visit_ast : Ast -> Blocks)
    (average_complexity : Blocks -> R) (analyze : Code -> RawModule)
    (code : Code) (count_multi : bool) :
  mi_parameters ast_parse from_ast cc_visit_ast average_complexity analyze
    code count_multi =
  let visitor := from_ast (ast_parse code) in
  let raw := analyze code in
  if (sloc raw =? 0)%N then Raise ZeroDivisionError
  else if ((distinct_operators visitor =? 0)
           || (distinct_operands visitor =? 0))%N then Raise ValueError
  else Ok (Halstead.volume (halstead_record visitor),
           average_complexity (cc_visit_ast (ast_parse code)),
           lloc raw,
           float (comments raw) / float (sloc raw) * 100).
Proof.
  unfold mi_parameters. cbv zeta.
  destruct (N.eqb_spec (sloc (analyze code)) 0) as [E | Hs].
  - rewrite E, float_0, truediv_zero. reflexivity.
  - rewrite truediv_ok by now apply float_neq_0.
    cbn [bind]. rewrite h_visit_ast_cases.
    destruct (_ || _)%bool; reflexivity.
Qed.

(** The whole pipeline on [commented_unit], for either value of the flag. *)
Example mi_visit_commented_unit (multi : bool) :
  Facts.index commented_unit multi =
  Ok (mi_formula (4 * (ln 3 / ln 2)) 1 2 25).
Proof.
  unfold Facts.index, mi_visit. rewrite mi_parameters_cases.
  cbn. unfold float; cbn.
  replace (1 / 4 * 100) with 25 by lra.
  rewrite compute_mi_cases. destruct (Rlt_dec 25 0); [lra | reflexivity].
Qed.

(** C2, as stated: the fourth result of [mi_parameters] is the comment count
    as a percentage of the logical-line count.  It fails on a unit whose
    source-line and logical-line counts differ: the code divides by
    [raw.sloc], here 4, and not by [raw.lloc], here 2. *)
Lemma mi_parameters_percentage_counterexample :
  comment_percentage (Facts.parameters commented_unit true) = Ok 25
  /\ spec_comment_percentage (Facts.raw commented_unit) true = 50
  /\ comment_percentage (Facts.parameters commented_unit true)
     <> Ok (spec_comment_percentage (Facts.raw commented_unit) true).
Proof.
  assert (E1 : comment_percentage (Facts.parameters commented_unit true)
               = Ok 25).
  { unfold Facts.parameters. rewrite mi_parameters_cases.
    cbn. f_equal. unfold float; cbn. lra. }
  assert (E2 : spec_comment_percentage (Facts.raw commented_unit) true = 50).
  { unfold spec_comment_percentage, float; cbn. lra. }
  repeat split; [exact E1 | exact E2 |].
  rewrite E1, E2. intros H. injection H. lra.
Qed.

(** C2, amended: on a unit with at least one source line (and at least one
    operator and one operand, so that the Halstead volume is returned), and
    when the flag is off or the unit has no multi-line string line, the
    fourth result of [mi_parameters] is the comment count, with the
    conditional multi-line addition, as a percentage of the source-line
    count [raw.sloc]. *)
Theorem mi_parameters_comment_percentage
    {Code Ast Blocks : Type} (ast_parse : Code -> Ast)
    (from_ast : Ast -> HalsteadVisitor) (cc_visit_ast : Ast -> Blocks)
    (average_complexity : Blocks -> R) (analyze : Code -> RawModule)
    (code : Code) (count_multi : bool) :
  sloc (analyze code) <> 0%N ->
  distinct_operators (from_ast (ast_parse code)) <> 0%N ->
  distinct_operands (from_ast (ast_parse code)) <> 0%N ->
  count_multi = false \/ multi (analyze code) = 0%N ->
  exists volume complexity,
    mi_parameters ast_parse from_ast cc_visit_ast average_complexity analyze
      code count_multi =
    Ok (volume, complexity, lloc (analyze code),
        float (comments (analyze code)
               + (if count_multi then multi (analyze code) else 0))
        / float (sloc (analyze code)) * 100).
Proof.
  intros Hs H1 H2 Hm. rewrite mi_parameters_cases. cbv zeta.
  destruct (N.eqb_spec (sloc (analyze code)) 0); [contradiction |].
  destruct (N.eqb_spec (distinct_operators (from_ast (ast_parse code))) 0);
    [contradiction |].
  destruct (N.eqb_spec (distinct_operands (from_ast (ast_parse code))) 0);
    [contradiction |].
  cbn [orb]. do 2 eexists.
  destruct Hm as [-> | Hm].
  - rewrite N.add_0_r. reflexivity.
  - rewrite Hm. destruct count_multi; rewrite N.add_0_r; reflexivity.
Qed.

Lemma mi_parameters_comment_percentage_witness :
  sloc (Facts.raw multiline_unit) <> 0%N
  /\ distinct_operators (Facts.visitor multiline_unit) <> 0%N
  /\ distinct_operands (Facts.visitor multiline_unit) <> 0%N
  /\ (false = false \/ multi (Facts.raw multiline_unit) = 0%N)
  /\ exists volume complexity,
       Facts.parameters multiline_unit false =
       Ok (volume, complexity, lloc (Facts.raw multiline_unit),
           float (comments (Facts.raw multiline_unit)
                  + (if false then multi (Facts.raw multiline_unit) else 0))
           / float (sloc (Facts.raw multiline_unit)) * 100).
Proof.
  assert (Hs : sloc (Facts.raw multiline_unit) <> 0%N) by discriminate.
  assert (H1 : distinct_operators (Facts.visitor multiline_unit) <> 0%N)
    by discriminate.
  assert (H2 : distinct_operands (Facts.visitor multiline_unit) <> 0%N)
    by discriminate.
  assert (Hm : false = false \/ multi (Facts.raw multiline_unit) = 0%N)
    by (left; reflexivity).
  repeat split; try assumption.
  exact (mi_parameters_comment_percentage
           (fun u => u) Facts.visitor Facts.complexity (fun c => c) Facts.raw
           multiline_unit false Hs H1 H2 Hm).
Defined.

(** With the flag on and multi-line string lines present the code departs
    from the docstring of [count_multi]: [comments_lines] is computed and
    not used, so [multiline_unit] gets the percentage of its comment line
    alone, 50, and not that of its comment and multi-line string lines,
    200. *)
Example mi_parameters_drops_multiline_strings :
  comment_percentage (Facts.parameters multiline_unit true) = Ok 50
  /\ float (comments (Facts.raw multiline_unit)
            + multi (Facts.raw multiline_unit))
     / float (sloc (Facts.raw multiline_unit)) * 100 = 200.
Proof.
  split.
  - unfold Facts.parameters. rewrite mi_parameters_cases.
    cbn. f_equal. unfold float; cbn. lra.
  - unfold float; cbn. lra.
Qed.

(** C4.  The claim is that a unit without logical lines gets the comment
    percentage 0 and a result.  The code has no guard on the division
    [raw.comments / float(raw.sloc)]: on every unit without source lines,
    the empty source among them, [mi_parameters] raises
    [ZeroDivisionError]. *)
Theorem mi_parameters_raises_without_source_lines
    {Code Ast Blocks : Type} (ast_parse : Code -> Ast)
    (from_ast : Ast -> HalsteadVisitor) (cc_visit_ast : Ast -> Blocks)
    (average_complexity : Blocks -> R) (analyze : Code -> RawModule)
    (code : Code) (count_multi : bool) :
  sloc (analyze code) = 0%N ->
  mi_parameters ast_parse from_ast cc_visit_ast average_complexity analyze
    code count_multi = Raise ZeroDivisionError.
Proof.
  intros Hs. rewrite mi_parameters_cases. cbv zeta.
  rewrite Hs. reflexivity.
Qed.

Lemma mi_parameters_raises_without_source_lines_witness :
  (lloc (Facts.raw empty_unit) = 0%N /\ sloc (Facts.raw empty_unit) = 0%N)
  /\ Facts.parameters empty_unit true = Raise ZeroDivisionError.
Proof.
  split.
  - split; reflexivity.
  - exact (mi_parameters_raises_without_source_lines
             (fun u => u) Facts.visitor Facts.complexity (fun c => c)
             Facts.raw empty_unit true eq_refl).
Defined.

(** C9.  The result of [mi_visit] does not depend on its [multi] flag:
    [comments_lines], the only value computed from the flag, is not used in
    what [mi_parameters] returns. *)
Theorem mi_visit_flag_independent
    {Code Ast Blocks : Type} (ast_parse : Code -> Ast)
    (from_ast : Ast -> HalsteadVisitor) (cc_visit_ast : Ast -> Blocks)
    (average_complexity : Blocks -> R) (analyze : Code -> RawModule)
    (code : Code) :
  mi_visit ast_parse from_ast cc_visit_ast average_complexity analyze
    code true =
  mi_visit ast_parse from_ast cc_visit_ast average_complexity analyze
    code false.
Proof.
  unfold mi_visit. rewrite !mi_parameters_cases. reflexivity.
Qed.

(** * Further properties of the Halstead computation *)

Lemma ln_nonneg (x : R) : 1 <= x -> 0 <= ln x.
Proof.
  intros [Hlt | <-].
  - rewrite <- ln_1. left. apply ln_increasing; lra.
  - rewrite ln_1. lra.
Qed.

Lemma ln_monotone (x y : R) : 0 < x -> x <= y -> ln x <= ln y.
Proof.
  intros Hx [Hlt | ->]; [| lra].
  left. now apply ln_increasing.
Qed.

Lemma float_nonneg (n : N) : 0 <= float n.
Proof.
  unfold float. apply IZR_le. lia.
Qed.

Lemma float_ge_1 (n : N) : n <> 0%N -> 1 <= float n.
Proof.
  intros Hn. unfold float. apply IZR_le. lia.
Qed.

Lemma float_le (a b : N) : (a <= b)%N -> float a <= float b.
Proof.
  intros H. unfold float. apply IZR_le. lia.
Qed.

(** The binary logarithm of a vocabulary with an operator and an operand is
    at least 1. *)
Lemma log2_vocabulary_ge_1 (h1 h2 : N) :
  h1 <> 0%N -> h2 <> 0%N -> 1 <= ln (float (h1 + h2)) / ln 2.
Proof.
  intros H1 H2. pose proof ln_2_pos as L2.
  assert (Hh : 2 <= float (h1 + h2)).
  { rewrite float_add. pose proof (float_ge_1 h1 H1).
    pose proof (float_ge_1 h2 H2). lra. }
  pose proof (ln_monotone 2 (float (h1 + h2)) ltac:(lra) Hh) as Hln.
  apply (Rmult_le_reg_r (ln 2)); [exact L2 |].
  unfold Rdiv. rewrite Rmult_assoc, Rinv_l by lra. lra.
Qed.

(** X1.  [h_visit] returns a record exactly when the parsed unit has at
    least one distinct operator and one distinct operand; in every other
    case it raises [ValueError], and it never raises [ZeroDivisionError]:
    the guard on [h2] covers the only division by a count. *)
Theorem h_visit_returns_iff
    {Code Ast : Type} (ast_parse : Code -> Ast)
    (from_ast : Ast -> HalsteadVisitor) (code : Code) :
  ((exists H, h_visit ast_parse from_ast code = Ok H) <->
   (distinct_operators (from_ast (ast_parse code)) <> 0%N
    /\ distinct_operands (from_ast (ast_parse code)) <> 0%N))
  /\ ((forall H, h_visit ast_parse from_ast code <> Ok H) <->
      h_visit ast_parse from_ast code = Raise ValueError)
  /\ h_visit ast_parse from_ast code <> Raise ZeroDivisionError.
Proof.
  unfold h_visit. rewrite h_visit_ast_cases.
  destruct (N.eqb_spec (distinct_operators (from_ast (ast_parse code))) 0)
    as [E1 | N1];
  [| destruct (N.eqb_spec (distinct_operands (from_ast (ast_parse code))) 0)
       as [E2 | N2]]; cbn [orb].
  - split; [| split]; [split | split |]; try discriminate.
    + intros [H HH]. discriminate.
    + intros [H1 _]. contradiction.
    + reflexivity.
  - split; [| split]; [split | split |]; try discriminate.
    + intros [H HH]. discriminate.
    + intros [_ H2]. contradiction.
    + reflexivity.
  - split; [| split]; [split | split |]; try discriminate.
    + intros _. now split.
    + intros _. now eexists.
    + intros HH. exfalso. exact (HH _ eq_refl).
Qed.

(** X2.  On a unit with at least one distinct operator and one distinct
    operand, [h_visit_ast] returns the four counts unchanged together with
    the metrics of its docstring: vocabulary [h1 + h2], length [N1 + N2],
    volume [N * log2 h] (computed as [math.log(h ** N, 2)]), difficulty
    [h1 / 2 * N2 / h2], effort [D * V], time [E / 18] and bugs [V / 3000]. *)
Theorem h_visit_ast_metrics
    {Ast : Type} (from_ast : Ast -> HalsteadVisitor) (ast_node : Ast) :
  distinct_operators (from_ast ast_node) <> 0%N ->
  distinct_operands (from_ast ast_node) <> 0%N ->
  exists H,
    h_visit_ast from_ast ast_node = Ok H
    /\ Halstead.h1 H = distinct_operators (from_ast ast_node)
    /\ Halstead.h2 H = distinct_operands (from_ast ast_node)
    /\ Halstead.N1 H = operators (from_ast ast_node)
    /\ Halstead.N2 H = operands (from_ast ast_node)
    /\ Halstead.vocabulary H = (Halstead.h1 H + Halstead.h2 H)%N
    /\ Halstead.length H = (Halstead.N1 H + Halstead.N2 H)%N
    /\ Halstead.calculated_length H =
         float (Halstead.h1 H) * (ln (float (Halstead.h1 H)) / ln 2)
         + float (Halstead.h2 H) * (ln (float (Halstead.h2 H)) / ln 2)
    /\ Halstead.volume H =
         float (Halstead.length H)
         * (ln (float (Halstead.vocabulary H)) / ln 2)
    /\ Halstead.difficulty H =
         float (Halstead.h1 H) / 2
         * (float (Halstead.N2 H) / float (Halstead.h2 H))
    /\ Halstead.effort H = Halstead.difficulty H * Halstead.volume H
    /\ Halstead.time H = Halstead.effort H / 18
    /\ Halstead.bugs H = Halstead.volume H / 3000.
Proof.
  intros H1 H2. exists (halstead_record (from_ast ast_node)).
  split; [now apply h_visit_ast_defined |].
  cbn. repeat split; reflexivity.
Qed.

Lemma h_visit_ast_metrics_witness :
  distinct_operators (mkVisitor 2 1 3 1) <> 0%N
  /\ distinct_operands (mkVisitor 2 1 3 1) <> 0%N
  /\ exists H,
       h_visit_ast (fun v => v) (mkVisitor 2 1 3 1) = Ok H
       /\ Halstead.h1 H = 2%N /\ Halstead.h2 H = 1%N
       /\ Halstead.vocabulary H = 3%N /\ Halstead.length H = 4%N.
Proof.
  assert (H1 : distinct_operators (mkVisitor 2 1 3 1) <> 0%N) by discriminate.
  assert (H2 : distinct_operands (mkVisitor 2 1 3 1) <> 0%N) by discriminate.
  split; [exact H1 |]. split; [exact H2 |].
  destruct (h_visit_ast_metrics (fun v => v) (mkVisitor 2 1 3 1) H1 H2)
    as (H & E & E1 & E2 & E3 & E4 & Ev & El & _).
  exists H. rewrite Ev, El, E1, E2, E3, E4. cbn. repeat split. exact E.
Defined.

(** X3.  Every record that [h_visit_ast] returns has non-negative metrics,
    and its volume is 0 exactly when its length is 0: [h ** N] is 1 for
    [N = 0] and at least 2 otherwise. *)
Theorem h_visit_ast_metrics_nonneg
    {Ast : Type} (from_ast : Ast -> HalsteadVisitor) (ast_node : Ast)
    (H : Halstead.t) :
  h_visit_ast from_ast ast_node = Ok H ->
  0 <= Halstead.calculated_length H
  /\ 0 <= Halstead.volume H
  /\ 0 <= Halstead.difficulty H
  /\ 0 <= Halstead.effort H
  /\ 0 <= Halstead.time H
  /\ 0 <= Halstead.bugs H
  /\ (Halstead.volume H = 0 <-> Halstead.length H = 0%N).
Proof.
  rewrite h_visit_ast_cases.
  destruct (N.eqb_spec (distinct_operators (from_ast ast_node)) 0)
    as [| H1]; [discriminate |].
  destruct (N.eqb_spec (distinct_operands (from_ast ast_node)) 0)
    as [| H2]; [discriminate |].
  cbn [orb]. intros E. injection E as <-.
  destruct (from_ast ast_node) as [h1 h2 N1 N2]; cbn in *.
  pose proof ln_2_pos as L2.
  pose proof (log2_vocabulary_ge_1 h1 h2 H1 H2) as Lh.
  pose proof (float_nonneg (N1 + N2)) as FN.
  pose proof (float_nonneg N2) as FN2.
  pose proof (float_ge_1 h1 H1) as F1.
  pose proof (float_ge_1 h2 H2) as F2.
  pose proof (ln_nonneg _ F1) as L1'.
  pose proof (ln_nonneg _ F2) as L2'.
  assert (V : float (N1 + N2) <=
              float (N1 + N2) * (ln (float (h1 + h2)) / ln 2)) by nra.
  assert (Q1 : 0 <= ln (float h1) / ln 2).
  { apply Rmult_le_pos; [lra |]. left. now apply Rinv_0_lt_compat. }
  assert (Q2 : 0 <= ln (float h2) / ln 2).
  { apply Rmult_le_pos; [lra |]. left. now apply Rinv_0_lt_compat. }
  assert (D : 0 <= float h1 / 2 * (float N2 / float h2)).
  { apply Rmult_le_pos; [lra |].
    apply Rmult_le_pos; [lra |]. left. apply Rinv_0_lt_compat. lra. }
  assert (E : 0 <= float h1 / 2 * (float N2 / float h2)
                   * (float (N1 + N2) * (ln (float (h1 + h2)) / ln 2))).
  { apply Rmult_le_pos; [exact D | lra]. }
  repeat split; try lra; try nra.
  - intros Hz. destruct (N.eq_dec (N1 + N2) 0) as [E0 | Hn]; [exact E0 |].
    pose proof (float_ge_1 _ Hn). lra.
  - intros ->. rewrite float_0. lra.
Qed.

Lemma h_visit_ast_metrics_nonneg_witness :
  h_visit_ast (fun v => v) (mkVisitor 2 1 3 1)
    = Ok (halstead_record (mkVisitor 2 1 3 1))
  /\ 0 <= Halstead.volume (halstead_record (mkVisitor 2 1 3 1)).
Proof.
  assert (E : h_visit_ast (fun v => v) (mkVisitor 2 1 3 1)
              = Ok (halstead_record (mkVisitor 2 1 3 1))).
  { apply (h_visit_ast_defined (fun v => v) (mkVisitor 2 1 3 1));
      discriminate. }
  split; [exact E |].
  exact (proj1 (proj2 (h_visit_ast_metrics_nonneg
                         (fun v => v) (mkVisitor 2 1 3 1)
                         (halstead_record (mkVisitor 2 1 3 1)) E))).
Defined.

(** X15.  The Halstead volume grows with the counts: when a unit with an
    operator and an operand is compared with one whose four counts are at
    least as large, both records are returned and the volume of the second
    is at least that of the first. *)
Theorem h_visit_ast_volume_monotone
    {Ast : Type} (from_ast : Ast -> HalsteadVisitor) (a b : Ast) :
  distinct_operators (from_ast a) <> 0%N ->
  distinct_operands (from_ast a) <> 0%N ->
  (distinct_operators (from_ast a) <= distinct_operators (from_ast b))%N ->
  (distinct_operands (from_ast a) <= distinct_operands (from_ast b))%N ->
  (operators (from_ast a) <= operators (from_ast b))%N ->
  (operands (from_ast a) <= operands (from_ast b))%N ->
  exists Ha Hb,
    h_visit_ast from_ast a = Ok Ha /\ h_visit_ast from_ast b = Ok Hb
    /\ Halstead.volume Ha <= Halstead.volume Hb.
Proof.
  intros H1 H2 L1 L2 L3 L4.
  assert (H1' : distinct_operators (from_ast b) <> 0%N) by lia.
  assert (H2' : distinct_operands (from_ast b) <> 0%N) by lia.
  exists (halstead_record (from_ast a)), (halstead_record (from_ast b)).
  split; [now apply h_visit_ast_defined |].
  split; [now apply h_visit_ast_defined |].
  destruct (from_ast a) as [h1 h2 N1 N2], (from_ast b) as [k1 k2 M1 M2].
  cbn in *.
  pose proof ln_2_pos as P2.
  pose proof (log2_vocabulary_ge_1 h1 h2 H1 H2) as La.
  assert (Lh : ln (float (h1 + h2)) / ln 2 <= ln (float (k1 + k2)) / ln 2).
  { apply Rmult_le_compat_r; [left; now apply Rinv_0_lt_compat |].
    apply ln_monotone; [apply float_pos; lia | apply float_le; lia]. }
  assert (LN : float (N1 + N2) <= float (M1 + M2)) by (apply float_le; lia).
  pose proof (float_nonneg (N1 + N2)) as FN.
  nra.
Qed.

Lemma h_visit_ast_volume_monotone_witness :
  distinct_operators (mkVisitor 2 1 3 1) <> 0%N
  /\ distinct_operands (mkVisitor 2 1 3 1) <> 0%N
  /\ exists Ha Hb,
       h_visit_ast (fun v => v) (mkVisitor 2 1 3 1) = Ok Ha
       /\ h_visit_ast (fun v => v) (mkVisitor 3 2 5 4) = Ok Hb
       /\ Halstead.volume Ha <= Halstead.volume Hb.
Proof.
  assert (H1 : distinct_operators (mkVisitor 2 1 3 1) <> 0%N) by discriminate.
  assert (H2 : distinct_operands (mkVisitor 2 1 3 1) <> 0%N) by discriminate.
  split; [exact H1 |]. split; [exact H2 |].
  apply (h_visit_ast_volume_monotone
           (fun v => v) (mkVisitor 2 1 3 1) (mkVisitor 3 2 5 4) H1 H2);
    cbn; lia.
Defined.

(** * Further properties of the Maintainability Index formula *)

Lemma compute_mi_returns (v c s p : R) :
  0 <= p -> compute_mi v c s p = Ok (mi_formula v c s p).
Proof.
  intros Hp. rewrite compute_mi_cases.
  destruct (Rlt_dec p 0); [lra | reflexivity].
Qed.

(** A scale is non-negative outside the interval (0, 1). *)
Lemma scale_nonneg (x : R) :
  x <= 0 \/ 1 <= x -> 0 <= (if Rgt_dec x 0 then ln x else 0).
Proof.
  intros Hx. destruct (Rgt_dec x 0) as [Hpos | _]; [| lra].
  apply ln_nonneg. lra.
Qed.

(** X4.  For a non-negative comment percentage [compute_mi] returns a score,
    and the score is never negative: it is floored at 0. *)
Theorem compute_mi_floor (v c s p : R) :
  0 <= p -> exists m, compute_mi v c s p = Ok m /\ 0 <= m.
Proof.
  intros Hp. exists (mi_formula v c s p).
  split; [now apply compute_mi_returns |].
  unfold mi_formula. apply Rmax_l.
Qed.

Lemma compute_mi_floor_witness :
  0 <= 0 /\ exists m, compute_mi 1000000 500 100000 0 = Ok m /\ 0 <= m.
Proof.
  split; [lra |].
  apply (compute_mi_floor 1000000 500 100000 0). lra.
Defined.

(** X5.  The score has no cap of its own, but it stays below
    [(171 + 50) * 100 / 171] when the complexity is non-negative and neither
    the volume nor the line count lies strictly between 0 and 1, which is
    where the logarithmic scales are non-negative. *)
Theorem compute_mi_cap (v c s p : R) :
  0 <= p -> 0 <= c -> v <= 0 \/ 1 <= v -> s <= 0 \/ 1 <= s ->
  exists m, compute_mi v c s p = Ok m /\ m <= 22100 / 171.
Proof.
  intros Hp Hc Hv Hs. exists (mi_formula v c s p).
  split; [now apply compute_mi_returns |].
  unfold mi_formula.
  pose proof (scale_nonneg v Hv) as Sv.
  pose proof (scale_nonneg s Hs) as Ss.
  pose proof (SIN_bound p) as [_ Sp].
  apply Rmax_lub; lra.
Qed.

Lemma compute_mi_cap_witness :
  0 <= 0 /\ 0 <= 1 /\ (0 <= 0 \/ 1 <= 0) /\ (3 <= 0 \/ 1 <= 3)
  /\ exists m, compute_mi 0 1 3 0 = Ok m /\ m <= 22100 / 171.
Proof.
  assert (H1 : 0 <= 0) by lra.
  assert (H2 : 0 <= 1) by lra.
  assert (H3 : 0 <= 0 \/ 1 <= 0) by (left; lra).
  assert (H4 : 3 <= 0 \/ 1 <= 3) by (right; lra).
  repeat split; try assumption.
  exact (compute_mi_cap 0 1 3 0 H1 H2 H3 H4).
Defined.

(** The floor [max(0, .)] does not increase distances. *)
Lemma Rmax_0_dist (x y d : R) :
  - d <= x - y <= d -> Rabs (Rmax 0 x - Rmax 0 y) <= d.
Proof.
  intros H. apply Rabs_le.
  unfold Rmax. destruct (Rle_dec 0 x), (Rle_dec 0 y); lra.
Qed.

(** X7.  With the other arguments fixed and a non-negative complexity, the
    comment percentage moves the score by less than 58.5 points: it enters
    only through [50 * sin(comments)], which spans at most
    [100 * 100 / 171]. *)
Theorem compute_mi_comments_influence (v c s p1 p2 : R) :
  0 <= c -> 0 <= p1 -> 0 <= p2 ->
  exists m1 m2,
    compute_mi v c s p1 = Ok m1 /\ compute_mi v c s p2 = Ok m2
    /\ Rabs (m1 - m2) <= 58.5.
Proof.
  intros _ H1 H2.
  exists (mi_formula v c s p1), (mi_formula v c s p2).
  split; [now apply compute_mi_returns |].
  split; [now apply compute_mi_returns |].
  unfold mi_formula. apply Rmax_0_dist.
  pose proof (SIN_bound p1). pose proof (SIN_bound p2).
  lra.
Qed.

Lemma compute_mi_comments_influence_witness :
  0 <= 2 /\ 0 <= 30 /\ 0 <= 90
  /\ exists m1 m2,
       compute_mi 10 2 20 30 = Ok m1 /\ compute_mi 10 2 20 90 = Ok m2
       /\ Rabs (m1 - m2) <= 58.5.
Proof.
  assert (H0 : 0 <= 2) by lra.
  assert (H1 : 0 <= 30) by lra.
  assert (H2 : 0 <= 90) by lra.
  repeat split; try assumption.
  exact (compute_mi_comments_influence 10 2 20 30 90 H0 H1 H2).
Defined.

(** X9.  A non-positive volume counts as the volume 1, and a non-positive
    line count as the line count 1: the guarded scale is 0 in both cases. *)
Theorem compute_mi_nonpositive_as_one (v s v' c s' p : R) :
  v <= 0 -> s <= 0 ->
  compute_mi v c s' p = compute_mi 1 c s' p
  /\ compute_mi v' c s p = compute_mi v' c 1 p
  /\ compute_mi v c s p = compute_mi 1 c 1 p.
Proof.
  intros Hv Hs. rewrite !compute_mi_cases. unfold mi_formula.
  destruct (Rgt_dec v 0); [lra |]. destruct (Rgt_dec s 0); [lra |].
  destruct (Rgt_dec 1 0); [| lra]. rewrite ln_1.
  repeat split; reflexivity.
Qed.

Lemma compute_mi_nonpositive_as_one_witness :
  0 <= 0 /\ -3 <= 0
  /\ compute_mi 0 2 7 10 = compute_mi 1 2 7 10
  /\ compute_mi 5 2 (-3) 10 = compute_mi 5 2 1 10
  /\ compute_mi 0 2 (-3) 10 = compute_mi 1 2 1 10.
Proof.
  assert (H1 : 0 <= 0) by lra.
  assert (H2 : -3 <= 0) by lra.
  split; [exact H1 |]. split; [exact H2 |].
  exact (compute_mi_nonpositive_as_one 0 (-3) 5 2 7 10 H1 H2).
Defined.

(** X10.  Raising a non-negative complexity by at least one point lowers
    every score that is above the floor, and leaves a score of 0 at 0. *)
Theorem compute_mi_strictly_decreasing (v c1 c2 s p : R) :
  0 <= p -> 0 <= c1 -> c1 + 1 <= c2 ->
  exists m1 m2,
    compute_mi v c1 s p = Ok m1 /\ compute_mi v c2 s p = Ok m2
    /\ (0 < m1 -> m2 < m1) /\ (m1 = 0 -> m2 = 0).
Proof.
  intros Hp _ Hc.
  exists (mi_formula v c1 s p), (mi_formula v c2 s p).
  split; [now apply compute_mi_returns |].
  split; [now apply compute_mi_returns |].
  unfold mi_formula, Rmax.
  repeat match goal with
         | |- context [Rle_dec ?a ?b] => destruct (Rle_dec a b)
         end; split; intros; lra.
Qed.

Lemma compute_mi_strictly_decreasing_witness :
  0 <= 0 /\ 0 <= 1 /\ 1 + 1 <= 2
  /\ exists m1 m2,
       compute_mi 1 1 1 0 = Ok m1 /\ compute_mi 1 2 1 0 = Ok m2
       /\ (0 < m1 -> m2 < m1) /\ (m1 = 0 -> m2 = 0).
Proof.
  assert (H1 : 0 <= 0) by lra.
  assert (H2 : 0 <= 1) by lra.
  assert (H3 : 1 + 1 <= 2) by lra.
  split; [exact H1 |]. split; [exact H2 |]. split; [exact H3 |].
  exact (compute_mi_strictly_decreasing 1 1 2 1 0 H1 H2 H3).
Defined.

(** * Further properties of the aggregator and of the whole pipeline *)

Lemma mi_formula_cap (v c s p : R) :
  0 <= c -> v <= 0 \/ 1 <= v -> s <= 0 \/ 1 <= s ->
  0 <= mi_formula v c s p <= 22100 / 171.
Proof.
  intros Hc Hv Hs. unfold mi_formula.
  pose proof (scale_nonneg v Hv) as Sv.
  pose proof (scale_nonneg s Hs) as Ss.
  pose proof (SIN_bound p) as [_ Sp].
  split; [apply Rmax_l | apply Rmax_lub; lra].
Qed.

(** A count, as a float, is 0 or at least 1. *)
Lemma float_zero_or_ge_1 (n : N) : float n <= 0 \/ 1 <= float n.
Proof.
  destruct (N.eq_dec n 0) as [-> | Hn].
  - left. rewrite float_0. lra.
  - right. now apply float_ge_1.
Qed.

(** The same holds of a Halstead volume. *)
Lemma volume_zero_or_ge_1 (v : HalsteadVisitor) :
  distinct_operators v <> 0%N -> distinct_operands v <> 0%N ->
  Halstead.volume (halstead_record v) <= 0
  \/ 1 <= Halstead.volume (halstead_record v).
Proof.
  intros H1 H2. destruct v as [h1 h2 N1 N2]; cbn in *.
  pose proof (log2_vocabulary_ge_1 h1 h2 H1 H2) as Lh.
  destruct (float_zero_or_ge_1 (N1 + N2)) as [Hz | Hp].
  - left. pose proof (float_nonneg (N1 + N2)).
    replace (float (N1 + N2)) with 0 by lra. lra.
  - right. nra.
Qed.

Lemma percentage_nonneg (c s : N) : s <> 0%N -> 0 <= float c / float s * 100.
Proof.
  intros Hs. pose proof (float_nonneg c). pose proof (float_pos s Hs).
  apply Rmult_le_pos; [| lra].
  apply Rmult_le_pos; [lra |]. left. now apply Rinv_0_lt_compat.
Qed.

(** X11.  On a unit that has source lines but no distinct operator or no
    distinct operand, [mi_parameters] raises [ValueError], for either value
    of the flag: the percentage is computed, the Halstead volume is not. *)
Theorem mi_parameters_raises_without_operators
    {Code Ast Blocks : Type} (ast_parse : Code -> Ast)
    (from_ast : Ast -> HalsteadVisitor) (cc_visit_ast : Ast -> Blocks)
    (average_complexity : Blocks -> R) (analyze : Code -> RawModule)
    (code : Code) (count_multi : bool) :
  sloc (analyze code) <> 0%N ->
  distinct_operators (from_ast (ast_parse code)) = 0%N
  \/ distinct_operands (from_ast (ast_parse code)) = 0%N ->
  mi_parameters ast_parse from_ast cc_visit_ast average_complexity analyze
    code count_multi = Raise ValueError.
Proof.
  intros Hs Hz. rewrite mi_parameters_cases. cbv zeta.
  destruct (N.eqb_spec (sloc (analyze code)) 0); [contradiction |].
  destruct Hz as [-> | ->]; cbn [N.eqb orb]; [reflexivity |].
  now rewrite orb_true_r.
Qed.

Lemma mi_parameters_raises_without_operators_witness :
  sloc (mkRaw 1 1 0 0) <> 0%N
  /\ (distinct_operators (mkVisitor 0 0 0 0) = 0%N
      \/ distinct_operands (mkVisitor 0 0 0 0) = 0%N)
  /\ Facts.parameters
       (Facts.mk (mkVisitor 0 0 0 0) 1 (mkRaw 1 1 0 0)) false
     = Raise ValueError.
Proof.
  assert (Hs : sloc (mkRaw 1 1 0 0) <> 0%N) by discriminate.
  assert (Hz : distinct_operators (mkVisitor 0 0 0 0) = 0%N
               \/ distinct_operands (mkVisitor 0 0 0 0) = 0%N)
    by (left; reflexivity).
  split; [exact Hs |]. split; [exact Hz |].
  exact (mi_parameters_raises_without_operators
           (fun u => u) Facts.visitor Facts.complexity (fun c => c) Facts.raw
           (Facts.mk (mkVisitor 0 0 0 0) 1 (mkRaw 1 1 0 0)) false Hs Hz).
Defined.

(** X12.  On a unit with source lines, an operator and an operand,
    [mi_parameters] returns the Halstead volume [N * log2 h], the average
    complexity, [raw.lloc] and the percentage [raw.comments / raw.sloc * 100].
    Neither the volume nor the percentage is ever negative, and the
    percentage is at most 100 when the comment lines do not outnumber the
    source lines. *)
Theorem mi_parameters_returns
    {Code Ast Blocks : Type} (ast_parse : Code -> Ast)
    (from_ast : Ast -> HalsteadVisitor) (cc_visit_ast : Ast -> Blocks)
    (average_complexity : Blocks -> R) (analyze : Code -> RawModule)
    (code : Code) (count_multi : bool) :
  sloc (analyze code) <> 0%N ->
  distinct_operators (from_ast (ast_parse code)) <> 0%N ->
  distinct_operands (from_ast (ast_parse code)) <> 0%N ->
  exists volume percentage,
    mi_parameters ast_parse from_ast cc_visit_ast average_complexity analyze
      code count_multi =
    Ok (volume, average_complexity (cc_visit_ast (ast_parse code)),
        lloc (analyze code), percentage)
    /\ volume =
         float (operators (from_ast (ast_parse code))
                + operands (from_ast (ast_parse code)))
         * (ln (float (distinct_operators (from_ast (ast_parse code))
                       + distinct_operands (from_ast (ast_parse code))))
            / ln 2)
    /\ 0 <= volume
    /\ percentage =
         float (comments (analyze code)) / float (sloc (analyze code)) * 100
    /\ 0 <= percentage
    /\ ((comments (analyze code) <= sloc (analyze code))%N ->
        percentage <= 100).
Proof.
  intros Hs H1 H2. rewrite mi_parameters_cases. cbv zeta.
  destruct (N.eqb_spec (sloc (analyze code)) 0); [contradiction |].
  destruct (N.eqb_spec (distinct_operators (from_ast (ast_parse code))) 0);
    [contradiction |].
  destruct (N.eqb_spec (distinct_operands (from_ast (ast_parse code))) 0);
    [contradiction |].
  cbn [orb]. do 2 eexists. split; [reflexivity |].
  pose proof (log2_vocabulary_ge_1 _ _ H1 H2) as Lh.
  pose proof (float_nonneg (operators (from_ast (ast_parse code))
                            + operands (from_ast (ast_parse code)))) as FN.
  pose proof (float_pos _ Hs) as FS.
  cbn [halstead_record Halstead.volume].
  split; [reflexivity |]. split; [nra |]. split; [reflexivity |].
  split; [now apply percentage_nonneg |].
  intros Hle. apply float_le in Hle.
  assert (Q : float (comments (analyze code)) / float (sloc (analyze code))
              <= 1).
  { apply (Rmult_le_reg_r (float (sloc (analyze code)))); [exact FS |].
    unfold Rdiv. rewrite Rmult_assoc, Rinv_l by lra. lra. }
  lra.
Qed.

Lemma mi_parameters_returns_witness :
  sloc (Facts.raw commented_unit) <> 0%N
  /\ distinct_operators (Facts.visitor commented_unit) <> 0%N
  /\ distinct_operands (Facts.visitor commented_unit) <> 0%N
  /\ exists volume percentage,
       Facts.parameters commented_unit false =
       Ok (volume, 1, 2%N, percentage)
       /\ 0 <= volume /\ 0 <= percentage /\ percentage <= 100.
Proof.
  assert (Hs : sloc (Facts.raw commented_unit) <> 0%N) by discriminate.
  assert (H1 : distinct_operators (Facts.visitor commented_unit) <> 0%N)
    by discriminate.
  assert (H2 : distinct_operands (Facts.visitor commented_unit) <> 0%N)
    by discriminate.
  split; [exact Hs |]. split; [exact H1 |]. split; [exact H2 |].
  destruct (mi_parameters_returns
              (fun u => u) Facts.visitor Facts.complexity (fun c => c)
              Facts.raw commented_unit false Hs H1 H2)
    as (v & p & E & _ & Hv & _ & Hp & Hle).
  exists v, p. split; [exact E |].
  split; [exact Hv | split; [exact Hp | apply Hle; cbn; lia]].
Defined.

(** X13.  [mi_visit] fails only where [mi_parameters] does: with
    [ZeroDivisionError] on a unit without source lines, else with
    [ValueError] on a unit without operators or operands.  On every other
    unit it returns the score of the formula: the percentage handed to
    [compute_mi] is never negative, so the square root does not raise. *)
Theorem mi_visit_cases
    {Code Ast Blocks : Type} (ast_parse : Code -> Ast)
    (from_ast : Ast -> HalsteadVisitor) (cc_visit_ast : Ast -> Blocks)
    (average_complexity : Blocks -> R) (analyze : Code -> RawModule)
    (code : Code) (multi : bool) :
  mi_visit ast_parse from_ast cc_visit_ast average_complexity analyze
    code multi =
  let visitor := from_ast (ast_parse code) in
  let raw := analyze code in
  if (sloc raw =? 0)%N then Raise ZeroDivisionError
  else if ((distinct_operators visitor =? 0)
           || (distinct_operands visitor =? 0))%N then Raise ValueError
  else
    let volume :=
      float (operators visitor + operands visitor)
      * (ln (float (distinct_operators visitor + distinct_operands visitor))
         / ln 2) in
    let complexity := average_complexity (cc_visit_ast (ast_parse code)) in
    let percentage := float (comments raw) / float (sloc raw) * 100 in
    Ok (Rmax 0
          ((171 - 5.2 * (if Rgt_dec volume 0 then ln volume else 0)
            - 0.23 * complexity
            - 16.2 * (if Rgt_dec (float (lloc raw)) 0
                      then ln (float (lloc raw)) else 0)
            + 50 * sin percentage) * 100 / 171)).
Proof.
  unfold mi_visit. rewrite mi_parameters_cases. cbv zeta.
  destruct (N.eqb_spec (sloc (analyze code)) 0) as [| Hs]; [reflexivity |].
  destruct (_ || _)%bool; [reflexivity |].
  cbn [bind]. rewrite compute_mi_returns by now apply percentage_nonneg.
  reflexivity.
Qed.

(** X14.  When the average complexity is non-negative, every score that
    [mi_visit] returns lies between 0 and [(171 + 50) * 100 / 171]: a
    Halstead volume and a logical-line count are 0 or at least 1, so both
    logarithmic scales are non-negative. *)
Theorem mi_visit_range
    {Code Ast Blocks : Type} (ast_parse : Code -> Ast)
    (from_ast : Ast -> HalsteadVisitor) (cc_visit_ast : Ast -> Blocks)
    (average_complexity : Blocks -> R) (analyze : Code -> RawModule)
    (code : Code) (multi : bool) :
  0 <= average_complexity (cc_visit_ast (ast_parse code)) ->
  sloc (analyze code) <> 0%N ->
  distinct_operators (from_ast (ast_parse code)) <> 0%N ->
  distinct_operands (from_ast (ast_parse code)) <> 0%N ->
  exists m,
    mi_visit ast_parse from_ast cc_visit_ast average_complexity analyze
      code multi = Ok m
    /\ 0 <= m <= 22100 / 171.
Proof.
  intros Hc Hs H1 H2. unfold mi_visit. rewrite mi_parameters_cases.
  cbv zeta.
  destruct (N.eqb_spec (sloc (analyze code)) 0); [contradiction |].
  destruct (N.eqb_spec (distinct_operators (from_ast (ast_parse code))) 0);
    [contradiction |].
  destruct (N.eqb_spec (distinct_operands (from_ast (ast_parse code))) 0);
    [contradiction |].
  cbn [orb bind]. rewrite compute_mi_returns by now apply percentage_nonneg.
  eexists. split; [reflexivity |].
  apply mi_formula_cap.
  - exact Hc.
  - now apply volume_zero_or_ge_1.
  - apply float_zero_or_ge_1.
Qed.

Lemma mi_visit_range_witness :
  0 <= Facts.complexity commented_unit
  /\ sloc (Facts.raw commented_unit) <> 0%N
  /\ distinct_operators (Facts.visitor commented_unit) <> 0%N
  /\ distinct_operands (Facts.visitor commented_unit) <> 0%N
  /\ exists m,
       Facts.index commented_unit true = Ok m /\ 0 <= m <= 22100 / 171.
Proof.
  assert (Hc : 0 <= Facts.complexity commented_unit) by (cbn; lra).
  assert (Hs : sloc (Facts.raw commented_unit) <> 0%N) by discriminate.
  assert (H1 : distinct_operators (Facts.visitor commented_unit) <> 0%N)
    by discriminate.
  assert (H2 : distinct_operands (Facts.visitor commented_unit) <> 0%N)
    by discriminate.
  split; [exact Hc |]. split; [exact Hs |]. split; [exact H1 |].
  split; [exact H2 |].
  exact (mi_visit_range
           (fun u => u) Facts.visitor Facts.complexity (fun c => c) Facts.raw
           commented_unit true Hc Hs H1 H2).
Defined.
